(** * Shear formulas for concrete (fib Model Code 2010)

    A shallow embedding of
    [structuralcodes/code/mc2010/_concrete_shear.py] and the
    properties its specification states about it.

    Modelling conventions.
    - Python numbers (ints and floats alike) are real numbers [R]:
      the arithmetic is the exact one, decimal literals are the
      rationals they denote, and rounding is not modelled.
    - The module is dynamically typed and several of its expressions
      combine a number with a tuple, with [None] or with a function
      object.  Results are therefore values of a small tagged union
      [value], and every operation that Python can refuse raises an
      exception of type [exn].
    - [warnings.warn] appends a message to a log that is returned
      beside the result: a computation is a pair of the log and either
      an exception or a value. *)

From Stdlib Require Import Reals Lra Psatz List String Bool.
Import ListNotations.
Local Open Scope R_scope.

(** ** Python values and exceptions *)

Set Warnings "-register-all".

Inductive exn : Set :=
| ZeroDivisionError
| TypeError
| ValueError.

Inductive value : Type :=
| Float (r : R)               (* a real number: Python int or float *)
| Cplx                        (* a complex number, from [neg ** fraction] *)
| NoneV                       (* None *)
| Tuple (items : list value)  (* a tuple *)
| Func (name : string).       (* a function object *)

(** ** Computations: a warning log and a result *)

Module Py.

Definition py (A : Type) : Type := (list string * (exn + A))%type.

Definition ret {A} (a : A) : py A := ([], inr a).

Definition raise {A} (e : exn) : py A := ([], inl e).

Definition warn (msg : string) : py unit := ([msg], inr tt).

Definition bind {A B} (c : py A) (k : A -> py B) : py B :=
  match c with
  | (w, inl e) => (w, inl e)
  | (w, inr a) => let (w', r) := k a in (w ++ w', r)
  end.

Definition warnings {A} (c : py A) : list string := fst c.

Definition result {A} (c : py A) : exn + A := snd c.

(** [returns c a]: the call ends normally with the value [a]. *)
Definition returns {A} (c : py A) (a : A) : Prop := result c = inr a.

(** [raises c]: the call ends with an exception. *)
Definition raises {A} (c : py A) : Prop := exists e, result c = inl e.

End Py.
Import Py.

Declare Scope py_scope.
Delimit Scope py_scope with py.
Notation "x <- c ;; k" := (bind c (fun x => k))
  (at level 61, c at next level, right associativity) : py_scope.
Notation "c ;;; k" := (bind c (fun _ => k))
  (at level 61, right associativity) : py_scope.
Local Open Scope py_scope.

(** ** Primitive operations *)

(** Comparisons of numbers, as booleans. *)
Definition py_eq (a b : R) : bool := if Req_dec_T a b then true else false.
Definition py_lt (a b : R) : bool := if Rlt_dec a b then true else false.
Definition py_gt (a b : R) : bool := py_lt b a.

(** Truth value of a number used as a condition: zero is false. *)
Definition truthy (a : R) : bool := negb (py_eq a 0).

(** [a / b] on numbers. *)
Definition py_div (a b : R) : py R :=
  if Req_dec_T b 0 then raise ZeroDivisionError else ret (a / b).

(** [a * b] on values.  Only two numbers multiply: a float does not
    multiply a tuple (repetition needs an int, and the factor the module
    puts before a tuple is the result of a true division, a float), and
    a number does not multiply a function object. *)
Definition py_mul (a b : value) : py value :=
  match a, b with
  | Float x, Float y => ret (Float (x * y))
  | _, _ => raise TypeError
  end.

(** [a + b] on values. *)
Definition py_add (a b : value) : py value :=
  match a, b with
  | Float x, Float y => ret (Float (x + y))
  | _, _ => raise TypeError
  end.

(** [x ** y] for a fractional exponent [0 < y < 1]: a negative base
    gives a complex number. *)
Definition py_pow_frac (x y : R) : value :=
  if Rlt_dec x 0 then Cplx
  else if Req_dec_T x 0 then Float 0
  else Float (Rpower x y).

(** [min(a, b)] and [max(a, b)]: the operands are compared with [<],
    which is defined between two numbers and refused when an operand is
    complex, [None] or a function object. *)
Definition py_min2 (a b : value) : py value :=
  match a, b with
  | Float x, Float y => ret (Float (if Rlt_dec y x then y else x))
  | _, _ => raise TypeError
  end.

Definition py_max2 (a b : value) : py value :=
  match a, b with
  | Float x, Float y => ret (Float (if Rlt_dec x y then y else x))
  | _, _ => raise TypeError
  end.

(** A value used where the code needs a number. *)
Definition num (v : value) : py R :=
  match v with
  | Float r => ret r
  | _ => raise TypeError
  end.

(** [min(v)] and [max(v)] with a single argument: [v] must be
    iterable and not empty. *)
Definition py_fold1 (f : value -> value -> py value) (v : value) : py value :=
  match v with
  | Tuple [] => raise ValueError
  | Tuple (x :: xs) =>
      fold_left (fun acc y => a <- acc ;; f a y) xs (ret x)
  | _ => raise TypeError
  end.

Definition py_min1 : value -> py value := py_fold1 py_min2.
Definition py_max1 : value -> py value := py_fold1 py_max2.

(** [1 / tan(a)].  Over the reals [tan] has poles at the odd multiples
    of [PI / 2], where the floating-point [tan] is a huge finite number
    and the quotient is (nearly) zero; the quotient is embedded as
    [cos a / sin a], which is [1 / tan a] wherever [tan a] is defined
    and zero at the poles.  The division raises where [tan a] is zero. *)
Definition cot (a : R) : R := cos a / sin a.

Definition inv_tan (a : R) : py R :=
  if Req_dec_T (sin a) 0 then raise ZeroDivisionError else ret (cot a).

(** A trailing parameter with a default value: [None] when the caller
    leaves the argument out. *)
Definition or_default (a : option R) (d : R) : R :=
  match a with Some x => x | None => d end.

(** ** The module's functions, callees first *)

(** [epsilon_x], lines 7-34.  The closing parenthesis of the product is
    misplaced in the source: the factor [1 / (2 * E * As)] multiplies
    the tuple [(..., 0)] and [max] receives the product as its only
    argument. *)
Definition epsilon_x (E As Med Ved Ned z delta_e : R) : py value :=
  c <- py_div 1 (2 * E * As) ;;
  q1 <- py_div (Rabs Med) z ;;
  h <- py_div 1 2 ;;
  q2 <- py_div delta_e z ;;
  p <- py_mul (Float c)
         (Tuple [Float (q1 + Rabs Ved + Rabs Ned * (h + q2)); Float 0]) ;;
  py_max1 p.

(** [v_rds], lines 346-374.  The default of [alpha] is [pi / 2]; the
    body converts [alpha] from degrees like any explicit argument.  The
    validity test is the chained comparison [45 < theta < 20]. *)
Definition v_rds (asw sw z fywd theta : R) (alpha : option R) : py value :=
  let alpha := or_default alpha (PI / 2) in
  (if py_lt 45 theta && py_lt theta 20
   then warn "Too high or too low compression field angel"
   else ret tt) ;;;
  a <- py_div asw sw ;;
  ct <- inv_tan (theta * PI / 180) ;;
  ca <- inv_tan (alpha * PI / 180) ;;
  ret (Float (a * z * fywd * (ct + ca) * sin (alpha * PI / 180))).

(** [nfc = min((30 / fck) ** (1 / 3), 1)], the first statement of the
    three [v_rd_max] approximations. *)
Definition nfc_of (fck : R) : py R :=
  b <- py_div 30 fck ;;
  e <- py_div 1 3 ;;
  m <- py_min2 (py_pow_frac b e) (Float 1) ;;
  num m.

(** The number [nfc_of] returns for a positive strength, in closed
    form: 1 up to 30 MPa, the cube root of [30 / fck] above. *)
Definition nfc_value (fck : R) : R :=
  if Rle_dec fck 30 then 1 else Rpower (30 / fck) (1 / 3).

(** The factor [((1/tan(t)) + (1/tan(a))) / (1 + (1/tan(t)) ** 2)] with
    both angles in degrees, the last factor of the three [v_rd_max]
    approximations. *)
Definition cot_ratio (theta alfa : R) : py R :=
  ct <- inv_tan (theta * PI / 180) ;;
  ca <- inv_tan (alfa * PI / 180) ;;
  ct' <- inv_tan (theta * PI / 180) ;;
  py_div (ct + ca) (1 + ct' ^ 2).

(** [v_rd_max_approx1], lines 427-462. *)
Definition v_rd_max_approx1 (fck bw theta z : R) (alfa gamma_c : option R)
  : py value :=
  let alfa := or_default alfa 0 in
  let gamma_c := or_default gamma_c 1.5 in
  nfc <- nfc_of fck ;;
  f <- py_div fck gamma_c ;;
  r <- cot_ratio theta alfa ;;
  ret (Float (0.55 * nfc * f * bw * z * r)).

(** The two refined [v_rd_max] approximations are stated over the
    strain function they call, so that their own statements can be
    examined for any behaviour of the callee; the module's functions
    are their instances at [epsilon_x]. *)
Section Refined.

Variable strain : R -> R -> R -> R -> R -> R -> R -> py value.

(** [epsilon_1] and the denominator [1.2 + 55 * epsilon_1], lines
    502-505 and 559-562. *)
Definition k_denominator (theta E As Med Ved Ned z delta_e : R) : py R :=
  e1 <- strain E As Med Ved Ned z delta_e ;;
  e2 <- strain E As Med Ved Ned z delta_e ;;
  s <- py_add e2 (Float 0.002) ;;
  ct <- inv_tan (theta * PI / 180) ;;
  p <- py_mul s (Float (ct ^ 2)) ;;
  epsilon_1 <- py_add e1 p ;;
  t <- py_mul (Float 55) epsilon_1 ;;
  d <- py_add (Float 1.2) t ;;
  num d.

(** [v_rd_max_approx2], lines 465-519.  The clamp is written
    [min(0.65)] and the [return] statement is inside the [if]. *)
Definition v_rd_max_approx2_on
  (fck bw theta z E As Med Ved Ned delta_e : R) (alfa gamma_c : option R)
  : py value :=
  let alfa := or_default alfa 0 in
  let gamma_c := or_default gamma_c 1.5 in
  nfc <- nfc_of fck ;;
  d <- k_denominator theta E As Med Ved Ned z delta_e ;;
  k_epsilon <- py_div 1 d ;;
  if py_gt k_epsilon 0.65 then
    k <- py_min1 (Float 0.65) ;;
    k_epsilon <- num k ;;
    f <- py_div fck gamma_c ;;
    r <- cot_ratio theta alfa ;;
    ret (Float (k_epsilon * nfc * f * bw * z * r))
  else ret NoneV.

(** [v_rd_max_approx3], lines 522-575.  [theta_min] is computed from
    the name [epsilon_x] itself, a function object. *)
Definition v_rd_max_approx3_on
  (fck bw theta z E As Med Ved Ned delta_e : R) (alfa gamma_c : option R)
  : py value :=
  let alfa := or_default alfa 0 in
  let gamma_c := or_default gamma_c 1.5 in
  nfc <- nfc_of fck ;;
  d <- k_denominator theta E As Med Ved Ned z delta_e ;;
  q <- py_div 1 d ;;
  k <- py_min2 (Float q) (Float 0.65) ;;
  k_epsilon <- num k ;;
  t <- py_mul (Float 10000) (Func "epsilon_x") ;;
  tm <- py_add (Float 20) t ;;
  theta_min <- num tm ;;
  f <- py_div fck gamma_c ;;
  r <- cot_ratio theta_min alfa ;;
  ret (Float (k_epsilon * nfc * f * bw * z * r)).

End Refined.

Definition v_rd_max_approx2 := v_rd_max_approx2_on epsilon_x.
Definition v_rd_max_approx3 := v_rd_max_approx3_on epsilon_x.

(** [v_rd_max], lines 377-424: no branch for a level other than 1, 2
    or 3, so the function ends without a [return] and yields [None]. *)
Definition v_rd_max
  (approx_lvl_s fck bw theta z E As Med Ved Ned delta_e : R)
  (alfa gamma_c : option R) : py value :=
  let alfa := or_default alfa 0 in
  let gamma_c := or_default gamma_c 1.5 in
  if py_eq approx_lvl_s 1 then
    v_rd_max_approx1 fck bw theta z (Some alfa) (Some gamma_c)
  else if py_eq approx_lvl_s 2 then
    v_rd_max_approx2 fck bw theta z E As Med Ved Ned delta_e
      (Some alfa) (Some gamma_c)
  else if py_eq approx_lvl_s 3 then
    v_rd_max_approx3 fck bw theta z E As Med Ved Ned delta_e
      (Some alfa) (Some gamma_c)
  else ret NoneV.

(** [fsqr = min(fck ** 0.5, 8)], the first statement of the three
    concrete approximations. *)
Definition fsqr_of (fck : R) : py R :=
  m <- py_min2 (py_pow_frac fck 0.5) (Float 8) ;;
  num m.

(** [v_rdc_approx1], lines 215-237. *)
Definition v_rdc_approx1 (fck z bw : R) (gamma_c : option R) : py value :=
  let gamma_c := or_default gamma_c 1.5 in
  fsqr <- fsqr_of fck ;;
  kv <- py_div 180 (1000 + 1.25 * z) ;;
  r <- py_div (kv * fsqr * z * bw) gamma_c ;;
  ret (Float r).

(** [v_rdc_approx2], lines 240-280. *)
Definition v_rdc_approx2
  (fck z bw dg E As Med Ved Ned delta_e : R) (gamma_c : option R)
  : py value :=
  let gamma_c := or_default gamma_c 1.5 in
  fsqr <- fsqr_of fck ;;
  q <- py_div 32 (16 + dg) ;;
  m <- py_max2 (Float q) (Float 0.75) ;;
  kdg <- num m ;;
  e <- epsilon_x E As Med Ved Ned z delta_e ;;
  t <- py_mul (Float 1500) e ;;
  d <- py_add (Float 1) t ;;
  dn <- num d ;;
  a <- py_div 0.4 dn ;;
  b <- py_div 1300 (1000 + kdg * z) ;;
  r <- py_div (a * b * fsqr * z * bw) gamma_c ;;
  ret (Float r).

(** [v_rds_approx3], lines 283-343.  [v_rd_max] is called with twelve
    positional arguments, which bind to its first twelve parameters
    ([approx_lvl_s] first); the second factor of [kv] is the tuple
    [(1 - Ved / v_rd_max(...), 0)]. *)
Definition v_rds_approx3
  (fck z bw E As Med Ved Ned delta_e alfa : R) (gamma_c : option R)
  : py value :=
  let gamma_c := or_default gamma_c 1.5 in
  fsqr <- fsqr_of fck ;;
  e1 <- epsilon_x E As Med Ved Ned z delta_e ;;
  t1 <- py_mul (Float 10000) e1 ;;
  tm <- py_add (Float 20) t1 ;;
  theta_min <- num tm ;;
  e2 <- epsilon_x E As Med Ved Ned z delta_e ;;
  t2 <- py_mul (Float 1500) e2 ;;
  d <- py_add (Float 1) t2 ;;
  dn <- num d ;;
  a <- py_div 0.4 dn ;;
  vm <- v_rd_max fck bw theta_min z E As Med Ved Ned delta_e alfa
          (Some gamma_c) None ;;
  vmax <- num vm ;;
  q <- py_div Ved vmax ;;
  p <- py_mul (Float a) (Tuple [Float (1 - q); Float 0]) ;;
  m <- py_max1 p ;;
  kv <- num m ;;
  r <- py_div (kv * fsqr * z * bw) gamma_c ;;
  ret (Float r).

(** [v_rdc], lines 157-212. *)
Definition v_rdc
  (approx_lvl_c approx_lvl_s fck z bw dg E As Med Ved Ned delta_e alfa : R)
  (gamma_c : option R) : py value :=
  let gamma_c := or_default gamma_c 1.5 in
  if py_eq approx_lvl_c 1 then
    v_rdc_approx1 fck z bw (Some gamma_c)
  else if py_eq approx_lvl_c 2 then
    v_rdc_approx2 fck z bw dg E As Med Ved Ned delta_e (Some gamma_c)
  else if py_eq approx_lvl_s 3 then
    v_rds_approx3 fck z bw E As Med Ved Ned delta_e alfa (Some gamma_c)
  else ret NoneV.

(** [v_rd], lines 37-154.  Both calls of [v_rdc] pass thirteen
    positional arguments, [approx_lvl_c, fck, z, ..., alfa, gamma_c],
    to a function whose second parameter is [approx_lvl_s]: they bind
    to the first thirteen parameters and [gamma_c] takes its default.
    The conditions [approx_lvl_c == 1 or 2] and
    [reinforcment and approx_lvl_s == 1 or 2] are disjunctions with the
    number 2. *)
Definition v_rd
  (approx_lvl_c approx_lvl_s : R) (reinforcment : bool)
  (fck z bw dg E As Med Ved Ned delta_e alfa gamma_c asw sw fywd theta : R)
  : py value :=
  (if negb (py_eq approx_lvl_c 1 || truthy 2)
   then warn "Not a valid approximation level"
   else ret tt) ;;;
  if negb reinforcment then
    v_rdc approx_lvl_c fck z bw dg E As Med Ved Ned delta_e alfa gamma_c None
  else if reinforcment && py_eq approx_lvl_s 3 then
    c <- v_rdc approx_lvl_c fck z bw dg E As Med Ved Ned delta_e alfa
           gamma_c None ;;
    s <- v_rds asw sw z fywd theta (Some alfa) ;;
    cs <- py_add c s ;;
    m <- v_rd_max approx_lvl_s fck bw theta z E As Med Ved Ned delta_e
           (Some alfa) (Some gamma_c) ;;
    py_min2 cs m
  else if (reinforcment && py_eq approx_lvl_s 1) || truthy 2 then
    s <- v_rds asw sw z fywd theta (Some alfa) ;;
    m <- v_rd_max approx_lvl_s fck bw theta z E As Med Ved Ned delta_e
           (Some alfa) (Some gamma_c) ;;
    py_min2 s m
  else ret NoneV.

(** * Properties *)

(** ** Reasoning about computations *)

Section Computations.

Context {A B : Type}.

Lemma bind_ret (a : A) (k : A -> py B) :
  bind (ret a) k = k a.
Proof. unfold bind, ret. destruct (k a) as [w r]. reflexivity. Qed.

Lemma bind_raise (e : exn) (k : A -> py B) :
  bind (raise e) k = raise e.
Proof. reflexivity. Qed.

Lemma raises_bind (c : py A) (k : A -> py B) :
  raises c -> raises (bind c k).
Proof.
  destruct c as [w [e | a]]; intros [e' H]; unfold result in H; simpl in H.
  - exists e. reflexivity.
  - discriminate.
Qed.

Lemma raises_bind_all (c : py A) (k : A -> py B) :
  (forall a, raises (k a)) -> raises (bind c k).
Proof.
  intros H. destruct c as [w [e | a]].
  - exists e. reflexivity.
  - destruct (H a) as [e He]. exists e. unfold result in *. simpl.
    destruct (k a) as [w' r]. exact He.
Qed.

Lemma returns_bind (c : py A) (k : A -> py B) (b : B) :
  returns (bind c k) b -> exists a, returns c a /\ returns (k a) b.
Proof.
  destruct c as [w [e | a]]; unfold returns, result; simpl.
  - discriminate.
  - intros H. exists a. split; [reflexivity |].
    destruct (k a) as [w' r]. exact H.
Qed.

Lemma warnings_bind (c : py A) (k : A -> py B) :
  warnings c = [] -> (forall a, warnings (k a) = []) ->
  warnings (bind c k) = [].
Proof.
  destruct c as [w [e | a]]; unfold warnings; simpl; intros Hw Hk.
  - exact Hw.
  - specialize (Hk a). destruct (k a) as [w' r]. simpl in *.
    subst. reflexivity.
Qed.

End Computations.

Lemma raises_not_returns {A} (c : py A) (a : A) :
  raises c -> ~ returns c a.
Proof. intros [e He] Hr. unfold returns in Hr. congruence. Qed.

Lemma raises_raise {A} (e : exn) : raises (@raise A e).
Proof. exists e. reflexivity. Qed.

(** ** The primitive operations on the inputs that matter *)

Lemma py_eq_refl (a : R) : py_eq a a = true.
Proof. unfold py_eq. destruct (Req_dec_T a a); [reflexivity | contradiction]. Qed.

Lemma py_eq_neq (a b : R) : a <> b -> py_eq a b = false.
Proof. intros H. unfold py_eq. destruct (Req_dec_T a b); [contradiction | reflexivity]. Qed.

Lemma py_lt_true (a b : R) : a < b -> py_lt a b = true.
Proof. intros H. unfold py_lt. destruct (Rlt_dec a b); [reflexivity | contradiction]. Qed.

Lemma py_lt_false (a b : R) : b <= a -> py_lt a b = false.
Proof. intros H. unfold py_lt. destruct (Rlt_dec a b); [lra | reflexivity]. Qed.

Lemma truthy_2 : truthy 2 = true.
Proof. unfold truthy. rewrite py_eq_neq by lra. reflexivity. Qed.

Lemma py_div_ok (a b : R) : b <> 0 -> py_div a b = ret (a / b).
Proof. intros H. unfold py_div. destruct (Req_dec_T b 0); [contradiction | reflexivity]. Qed.

Lemma py_div_zero (a : R) : py_div a 0 = raise ZeroDivisionError.
Proof. unfold py_div. destruct (Req_dec_T 0 0); [reflexivity | contradiction]. Qed.

Lemma py_div_warnings (a b : R) : warnings (py_div a b) = [].
Proof. unfold py_div. destruct (Req_dec_T b 0); reflexivity. Qed.

Lemma inv_tan_ok (a : R) : sin a <> 0 -> inv_tan a = ret (cot a).
Proof. intros H. unfold inv_tan. destruct (Req_dec_T (sin a) 0); [contradiction | reflexivity]. Qed.

Lemma inv_tan_zero (a : R) : sin a = 0 -> inv_tan a = raise ZeroDivisionError.
Proof. intros H. unfold inv_tan. destruct (Req_dec_T (sin a) 0); [reflexivity | contradiction]. Qed.

Lemma inv_tan_warnings (a : R) : warnings (inv_tan a) = [].
Proof. unfold inv_tan. destruct (Req_dec_T (sin a) 0); reflexivity. Qed.

(** The chained comparison [45 < theta < 20] holds for no number. *)
Lemma chained_comparison_false (theta : R) :
  py_lt 45 theta && py_lt theta 20 = false.
Proof.
  unfold py_lt. destruct (Rlt_dec 45 theta), (Rlt_dec theta 20);
    try reflexivity. lra.
Qed.

(** ** [epsilon_x] *)

(** Whatever the arguments, [epsilon_x] ends with an exception: a
    division by zero, or the product of a float and a tuple. *)
Lemma epsilon_x_raises (E As Med Ved Ned z delta_e : R) :
  raises (epsilon_x E As Med Ved Ned z delta_e).
Proof.
  unfold epsilon_x.
  do 4 (apply raises_bind_all; intros ?).
  apply raises_bind. simpl. apply raises_raise.
Qed.

Lemma epsilon_x_type_error (E As Med Ved Ned z delta_e : R) :
  z <> 0 -> E * As <> 0 ->
  epsilon_x E As Med Ved Ned z delta_e = raise TypeError.
Proof.
  intros Hz HEA. unfold epsilon_x.
  rewrite (py_div_ok 1 (2 * E * As)) by lra. rewrite bind_ret.
  rewrite (py_div_ok _ z) by assumption. rewrite bind_ret.
  rewrite (py_div_ok 1 2) by lra. rewrite bind_ret.
  rewrite (py_div_ok _ z) by assumption. rewrite bind_ret.
  reflexivity.
Qed.

(** C1 (the code departs from the claim).  On the first input of the
    reference suite, where the strain is expected to be about 8.1e-4,
    [epsilon_x] returns no number: it raises [TypeError]. *)
Theorem epsilon_x_reference_input_raises :
  epsilon_x 200000 1000 50000000 10000 2000 160 50 = raise TypeError
  /\ forall v, ~ returns (epsilon_x 200000 1000 50000000 10000 2000 160 50) v.
Proof.
  split.
  - apply epsilon_x_type_error; lra.
  - intros v. apply raises_not_returns, epsilon_x_raises.
Qed.

(** ** [v_rds]: the validity warning *)

Lemma v_rds_never_warns (asw sw z fywd theta : R) (alpha : option R) :
  warnings (v_rds asw sw z fywd theta alpha) = [].
Proof.
  unfold v_rds. rewrite chained_comparison_false.
  apply warnings_bind; [reflexivity | intros _].
  apply warnings_bind; [apply py_div_warnings | intros a].
  apply warnings_bind; [apply inv_tan_warnings | intros ct].
  apply warnings_bind; [apply inv_tan_warnings | intros ca].
  reflexivity.
Qed.

(** For an angle of [t] degrees strictly between 0 and 180 the sine is
    positive, so [1 / tan] is defined. *)
Lemma sin_degrees_pos (t : R) : 0 < t < 180 -> 0 < sin (t * PI / 180).
Proof.
  intros [H0 H180]. pose proof PI_RGT_0 as Hpi.
  apply sin_gt_0.
  - apply Rmult_lt_0_compat; [| lra]. apply Rmult_lt_0_compat; lra.
  - assert (t * PI < 180 * PI) by (apply Rmult_lt_compat_r; lra). lra.
Qed.

Lemma sin_degrees_neq_0 (t : R) : 0 < t < 180 -> sin (t * PI / 180) <> 0.
Proof. intros H. pose proof (sin_degrees_pos t H). lra. Qed.

Lemma v_rds_value (asw sw z fywd theta alfa : R) :
  sw <> 0 -> sin (theta * PI / 180) <> 0 -> sin (alfa * PI / 180) <> 0 ->
  v_rds asw sw z fywd theta (Some alfa) =
  ret (Float (asw / sw * z * fywd
              * (cot (theta * PI / 180) + cot (alfa * PI / 180))
              * sin (alfa * PI / 180))).
Proof.
  intros Hsw Ht Ha. unfold v_rds, or_default.
  rewrite chained_comparison_false, bind_ret.
  rewrite py_div_ok by assumption. rewrite bind_ret.
  rewrite inv_tan_ok by assumption. rewrite bind_ret.
  rewrite inv_tan_ok by assumption. rewrite bind_ret.
  reflexivity.
Qed.

(** C7 (the code departs from the claim).  With [theta = 50], outside
    the range from 20 to 45 degrees, [v_rds] returns the value of the
    formula and its warning log is empty: no warning is emitted. *)
Theorem v_rds_out_of_range_angle_not_reported :
  warnings (v_rds 1600 50 200 355 50 (Some 30)) = []
  /\ returns (v_rds 1600 50 200 355 50 (Some 30))
       (Float (1600 / 50 * 200 * 355
               * (cot (50 * PI / 180) + cot (30 * PI / 180))
               * sin (30 * PI / 180))).
Proof.
  split.
  - apply v_rds_never_warns.
  - rewrite v_rds_value; [reflexivity | lra | |];
      apply sin_degrees_neq_0; lra.
Qed.

(** ** The dispatchers on an undefined level *)

(** C6, counterexample: [v_rd_max] at level 4 raises nothing. *)
Lemma v_rd_max_level_4_does_not_raise :
  ~ raises (v_rd_max 4 30 50 20 200 210000 1000 200000000 50000 10000 50
              (Some 20) (Some 1.5)).
Proof.
  unfold v_rd_max. rewrite !py_eq_neq by lra.
  intros [e He]. discriminate He.
Qed.

(** C6, as amended.  [v_rd_max] at a level other than 1, 2 and 3, and
    [v_rdc] at a concrete level other than 1 and 2 with a steel level
    other than 3, raise no error and emit no warning: they return
    [None]. *)
Theorem undefined_level_returns_none
  (approx_lvl_c approx_lvl_s fck z bw dg theta E As Med Ved Ned delta_e alfa
     : R) (oalfa gamma_c : option R) :
  approx_lvl_s <> 3 ->
  (approx_lvl_s <> 1 -> approx_lvl_s <> 2 ->
   v_rd_max approx_lvl_s fck bw theta z E As Med Ved Ned delta_e oalfa gamma_c
   = ret NoneV)
  /\ (approx_lvl_c <> 1 -> approx_lvl_c <> 2 ->
      v_rdc approx_lvl_c approx_lvl_s fck z bw dg E As Med Ved Ned delta_e
        alfa gamma_c = ret NoneV).
Proof.
  intros H3. split; intros H1 H2.
  - unfold v_rd_max. rewrite !py_eq_neq by assumption. reflexivity.
  - unfold v_rdc. rewrite !py_eq_neq by assumption. reflexivity.
Qed.

(** The amended C6 at level 4 of [v_rd_max] and at levels 0 and 4 of
    [v_rdc]. *)
Lemma undefined_level_returns_none_witness :
  v_rd_max 4 30 50 20 200 210000 1000 200000000 50000 10000 50
    (Some 20) (Some 1.5) = ret NoneV
  /\ v_rdc 0 4 35 200 300 32 210000 2000 40000000 20000 1000 50 1.5
       (Some 1.5) = ret NoneV.
Proof.
  destruct (undefined_level_returns_none 0 4 35 200 300 32 20 210000 2000
              40000000 20000 1000 50 1.5 (Some 20) (Some 1.5)) as [Hs Hc];
    [lra |].
  split.
  - pose proof (undefined_level_returns_none 0 4 30 200 50 32 20 210000 1000
                  200000000 50000 10000 50 1.5 (Some 20) (Some 1.5)) as H.
    apply H; lra.
  - apply Hc; lra.
Defined.

(** ** [v_rdc] at level 1 *)

Lemma v_rdc_level_1 (approx_lvl_s fck z bw dg E As Med Ved Ned delta_e alfa : R)
  (gamma_c : option R) :
  v_rdc 1 approx_lvl_s fck z bw dg E As Med Ved Ned delta_e alfa gamma_c
  = v_rdc_approx1 fck z bw (Some (or_default gamma_c 1.5)).
Proof. unfold v_rdc. rewrite py_eq_refl. reflexivity. Qed.

(** C10.  At concrete level 1 the result of [v_rdc] is the same for any
    two choices of [E], [As], [Med], [Ved], [Ned] and [delta_e]. *)
Theorem v_rdc_level_1_ignores_internal_forces
  (approx_lvl_s fck z bw dg alfa : R) (gamma_c : option R)
  (E As Med Ved Ned delta_e E' As' Med' Ved' Ned' delta_e' : R) :
  v_rdc 1 approx_lvl_s fck z bw dg E As Med Ved Ned delta_e alfa gamma_c
  = v_rdc 1 approx_lvl_s fck z bw dg E' As' Med' Ved' Ned' delta_e' alfa
      gamma_c.
Proof. rewrite !v_rdc_level_1. reflexivity. Qed.

(** ** The strength factors *)

Lemma sqrt_between (x lo hi : R) :
  0 <= lo -> 0 <= hi -> lo * lo <= x -> x <= hi * hi ->
  lo <= sqrt x <= hi.
Proof.
  intros Hlo Hhi Hl Hh. split.
  - rewrite <- (sqrt_square lo) by assumption. apply sqrt_le_1_alt, Hl.
  - rewrite <- (sqrt_square hi) by assumption. apply sqrt_le_1_alt, Hh.
Qed.

Lemma py_pow_frac_pos (x y : R) : 0 < x -> py_pow_frac x y = Float (Rpower x y).
Proof.
  intros H. unfold py_pow_frac.
  destruct (Rlt_dec x 0); [lra |]. destruct (Req_dec_T x 0); [lra | reflexivity].
Qed.

Lemma Rpower_half (x : R) : 0 < x -> Rpower x 0.5 = sqrt x.
Proof. intros H. replace 0.5 with (/ 2) by lra. apply Rpower_sqrt, H. Qed.

(** [fsqr] for a positive strength: the square root, capped at 8. *)
Lemma fsqr_of_pos (fck : R) :
  0 < fck ->
  fsqr_of fck = ret (if Rlt_dec 8 (sqrt fck) then 8 else sqrt fck).
Proof.
  intros H. unfold fsqr_of. rewrite py_pow_frac_pos, Rpower_half by assumption.
  reflexivity.
Qed.

Lemma nfc_of_pos (fck : R) : 0 < fck -> exists n, nfc_of fck = ret n.
Proof.
  intros H. unfold nfc_of.
  rewrite py_div_ok by lra. rewrite bind_ret.
  rewrite py_div_ok by lra. rewrite bind_ret.
  rewrite py_pow_frac_pos by (apply Rdiv_lt_0_compat; lra).
  eexists. reflexivity.
Qed.

Lemma v_rdc_approx1_value (fck z bw gamma_c : R) :
  0 < fck -> 1000 + 1.25 * z <> 0 -> gamma_c <> 0 ->
  v_rdc_approx1 fck z bw (Some gamma_c) =
  ret (Float (180 / (1000 + 1.25 * z)
              * (if Rlt_dec 8 (sqrt fck) then 8 else sqrt fck)
              * z * bw / gamma_c)).
Proof.
  intros Hf Hz Hg. unfold v_rdc_approx1, or_default.
  rewrite fsqr_of_pos by assumption. rewrite bind_ret.
  rewrite py_div_ok by assumption. rewrite bind_ret.
  rewrite py_div_ok by assumption. rewrite bind_ret.
  reflexivity.
Qed.

(** The first case of the reference suite for [v_rdc]: level 1 returns
    a number, about 31294. *)
Lemma v_rdc_level_1_reference :
  exists r,
    v_rdc 1 0 35 180 300 0 0 0 0 0 0 0 0 (Some 1.5) = ret (Float r)
    /\ Rabs (r - 31294) <= 0.001 * 31294.
Proof.
  eexists. split.
  - rewrite v_rdc_level_1. unfold or_default.
    rewrite v_rdc_approx1_value by lra. reflexivity.
  - destruct (sqrt_between 35 5.916 5.9161) as [Hl Hh]; try lra.
    destruct (Rlt_dec 8 (sqrt 35)); [lra |].
    apply Rabs_le. split; lra.
Qed.

(** ** [v_rd] without shear reinforcement *)

Lemma v_rd_level_check (approx_lvl_c : R) :
  negb (py_eq approx_lvl_c 1 || truthy 2) = false.
Proof. rewrite truthy_2, orb_true_r. reflexivity. Qed.

(** Without reinforcement [v_rd] is the call of [v_rdc] with its
    thirteen arguments in the first thirteen positions. *)
Lemma v_rd_unreinforced
  (approx_lvl_c approx_lvl_s fck z bw dg E As Med Ved Ned delta_e alfa gamma_c
     asw sw fywd theta : R) :
  v_rd approx_lvl_c approx_lvl_s false fck z bw dg E As Med Ved Ned delta_e
    alfa gamma_c asw sw fywd theta
  = v_rdc approx_lvl_c fck z bw dg E As Med Ved Ned delta_e alfa gamma_c None.
Proof.
  unfold v_rd. rewrite v_rd_level_check, bind_ret. reflexivity.
Qed.

(** C2 (the code departs from the claim).  On the first case of the
    reference suite for [v_rd], expected to be about 20863, [v_rd]
    returns 2457.6, the level-1 resistance for [fck = 180], [z = 200],
    [bw = 16]; [v_rdc] with the arguments bound to the parameters of
    the same names returns a number within 0.1 percent of 20863. *)
Theorem v_rd_unreinforced_shifts_arguments :
  v_rd 1 0 false 35 180 200 16 200000 2000 0 2000 0 20 90 1.5 0 0 434 40
  = ret (Float 2457.6)
  /\ exists r,
       v_rdc 1 0 35 180 200 16 200000 2000 0 2000 0 20 90 (Some 1.5)
       = ret (Float r)
       /\ Rabs (r - 20863) <= 0.001 * 20863
       /\ r <> 2457.6.
Proof.
  split.
  - rewrite v_rd_unreinforced, v_rdc_level_1. unfold or_default.
    rewrite v_rdc_approx1_value by lra.
    destruct (sqrt_between 180 8 14) as [Hl Hh]; try lra.
    destruct (Rlt_dec 8 (sqrt 180)) as [Hlt | Hge].
    + unfold ret. do 3 f_equal. lra.
    + assert (Heq : sqrt 180 = 8) by lra.
      pose proof (sqrt_sqrt 180) as Hs. rewrite Heq in Hs. lra.
  - eexists. split; [| split].
    + rewrite v_rdc_level_1. unfold or_default.
      rewrite v_rdc_approx1_value by lra. reflexivity.
    + destruct (sqrt_between 35 5.916 5.9161) as [Hl Hh]; try lra.
      destruct (Rlt_dec 8 (sqrt 35)); [lra |].
      apply Rabs_le. split; lra.
    + destruct (sqrt_between 35 5.916 5.9161) as [Hl Hh]; try lra.
      destruct (Rlt_dec 8 (sqrt 35)); lra.
Qed.

(** ** The refined [v_rd_max] approximations *)

(** The denominator of [k_epsilon] is not computed when the strain
    function raises. *)
Lemma k_denominator_raises
  (strain : R -> R -> R -> R -> R -> R -> R -> py value)
  (theta E As Med Ved Ned z delta_e : R) :
  raises (strain E As Med Ved Ned z delta_e) ->
  raises (k_denominator strain theta E As Med Ved Ned z delta_e).
Proof. intros H. unfold k_denominator. apply raises_bind, H. Qed.

(** [v_rd_max_approx2] never returns a number, whatever the strain
    function does: below the ceiling it falls off its end and returns
    [None]; above it, [min(0.65)] raises. *)
Lemma v_rd_max_approx2_on_no_number
  (strain : R -> R -> R -> R -> R -> R -> R -> py value)
  (fck bw theta z E As Med Ved Ned delta_e : R) (alfa gamma_c : option R)
  (r : R) :
  ~ returns (v_rd_max_approx2_on strain fck bw theta z E As Med Ved Ned
               delta_e alfa gamma_c) (Float r).
Proof.
  unfold v_rd_max_approx2_on. intros H.
  apply returns_bind in H. destruct H as [nfc [_ H]].
  apply returns_bind in H. destruct H as [d [_ H]].
  apply returns_bind in H. destruct H as [k [_ H]].
  destruct (py_gt k 0.65).
  - apply returns_bind in H. destruct H as [k' [H _]]. discriminate H.
  - discriminate H.
Qed.

(** [v_rd_max_approx3] raises whatever the strain function does: it
    multiplies 10000 by a function object. *)
Lemma v_rd_max_approx3_on_raises
  (strain : R -> R -> R -> R -> R -> R -> R -> py value)
  (fck bw theta z E As Med Ved Ned delta_e : R) (alfa gamma_c : option R) :
  raises (v_rd_max_approx3_on strain fck bw theta z E As Med Ved Ned
            delta_e alfa gamma_c).
Proof.
  unfold v_rd_max_approx3_on.
  do 5 (apply raises_bind_all; intros ?).
  apply raises_bind. simpl. apply raises_raise.
Qed.

Lemma v_rd_max_approx2_raises
  (fck bw theta z E As Med Ved Ned delta_e : R) (alfa gamma_c : option R) :
  raises (v_rd_max_approx2 fck bw theta z E As Med Ved Ned delta_e alfa
            gamma_c).
Proof.
  unfold v_rd_max_approx2, v_rd_max_approx2_on.
  apply raises_bind_all; intros nfc.
  apply raises_bind, k_denominator_raises, epsilon_x_raises.
Qed.

Lemma refined_type_error
  (fck theta z E As Med Ved Ned delta_e : R) (k : R -> R -> py value) :
  0 < fck -> z <> 0 -> E * As <> 0 ->
  (nfc <- nfc_of fck ;;
   d <- k_denominator epsilon_x theta E As Med Ved Ned z delta_e ;;
   k nfc d) = raise TypeError.
Proof.
  intros Hf Hz HEA. destruct (nfc_of_pos fck Hf) as [n Hn].
  rewrite Hn, bind_ret. unfold k_denominator.
  rewrite epsilon_x_type_error by assumption. reflexivity.
Qed.

Lemma v_rd_max_approx2_type_error
  (fck bw theta z E As Med Ved Ned delta_e : R) (alfa gamma_c : option R) :
  0 < fck -> z <> 0 -> E * As <> 0 ->
  v_rd_max_approx2 fck bw theta z E As Med Ved Ned delta_e alfa gamma_c
  = raise TypeError.
Proof.
  intros Hf Hz HEA. unfold v_rd_max_approx2, v_rd_max_approx2_on.
  apply refined_type_error; assumption.
Qed.

Lemma v_rd_max_approx3_type_error
  (fck bw theta z E As Med Ved Ned delta_e : R) (alfa gamma_c : option R) :
  0 < fck -> z <> 0 -> E * As <> 0 ->
  v_rd_max_approx3 fck bw theta z E As Med Ved Ned delta_e alfa gamma_c
  = raise TypeError.
Proof.
  intros Hf Hz HEA. unfold v_rd_max_approx3, v_rd_max_approx3_on.
  apply refined_type_error; assumption.
Qed.

(** C4 (the code departs from the claim).  On the second case of the
    reference suite for [v_rd_max], expected to be about 39997,
    [v_rd_max_approx2] raises [TypeError]; and on this input it returns
    no number whatever its strain function returns. *)
Theorem v_rd_max_approx2_reference_input_raises :
  v_rd_max_approx2 30 50 20 200 210000 1000 200000000 50000 10000 50
    (Some 20) (Some 1.5) = raise TypeError
  /\ forall strain r,
       ~ returns (v_rd_max_approx2_on strain 30 50 20 200 210000 1000
                    200000000 50000 10000 50 (Some 20) (Some 1.5)) (Float r).
Proof.
  split.
  - apply v_rd_max_approx2_type_error; lra.
  - intros strain r. apply v_rd_max_approx2_on_no_number.
Qed.

(** C5 (the code departs from the claim).  On the last case of the
    reference suite for [v_rd_max], expected to be about 102995,
    [v_rd_max_approx3] raises [TypeError] and no [theta_min] enters
    the result; it raises on this input whatever its strain function
    returns. *)
Theorem v_rd_max_approx3_reference_input_raises :
  v_rd_max_approx3 30 50 20 200 210000 1000 50000000 10000 10000 50
    (Some 20) (Some 1.5) = raise TypeError
  /\ forall strain,
       raises (v_rd_max_approx3_on strain 30 50 20 200 210000 1000
                 50000000 10000 10000 50 (Some 20) (Some 1.5)).
Proof.
  split.
  - apply v_rd_max_approx3_type_error; lra.
  - intros strain. apply v_rd_max_approx3_on_raises.
Qed.

(** ** [v_rd] with shear reinforcement *)

(** With reinforcement and a steel level other than 3, [v_rd] is the
    minimum of [v_rds] and [v_rd_max], evaluated in this order. *)
Lemma v_rd_reinforced_low
  (approx_lvl_c approx_lvl_s fck z bw dg E As Med Ved Ned delta_e alfa gamma_c
     asw sw fywd theta : R) :
  approx_lvl_s <> 3 ->
  v_rd approx_lvl_c approx_lvl_s true fck z bw dg E As Med Ved Ned delta_e
    alfa gamma_c asw sw fywd theta
  = (s <- v_rds asw sw z fywd theta (Some alfa) ;;
     m <- v_rd_max approx_lvl_s fck bw theta z E As Med Ved Ned delta_e
            (Some alfa) (Some gamma_c) ;;
     py_min2 s m).
Proof.
  intros H3. unfold v_rd. rewrite v_rd_level_check, bind_ret.
  rewrite (py_eq_neq approx_lvl_s 3) by assumption.
  rewrite truthy_2, orb_true_r. reflexivity.
Qed.

Lemma cot_ratio_ok (theta alfa : R) :
  sin (theta * PI / 180) <> 0 -> sin (alfa * PI / 180) <> 0 ->
  cot_ratio theta alfa =
  ret ((cot (theta * PI / 180) + cot (alfa * PI / 180))
       / (1 + cot (theta * PI / 180) ^ 2)).
Proof.
  intros Ht Ha. unfold cot_ratio.
  rewrite (inv_tan_ok _ Ht), (inv_tan_ok _ Ha), !bind_ret.
  apply py_div_ok. pose proof (pow2_ge_0 (cot (theta * PI / 180))). lra.
Qed.

Lemma v_rd_max_approx1_returns (fck bw theta z alfa gamma_c : R) :
  0 < fck -> gamma_c <> 0 ->
  sin (theta * PI / 180) <> 0 -> sin (alfa * PI / 180) <> 0 ->
  exists m,
    v_rd_max_approx1 fck bw theta z (Some alfa) (Some gamma_c)
    = ret (Float m).
Proof.
  intros Hf Hg Ht Ha. unfold v_rd_max_approx1, or_default.
  destruct (nfc_of_pos fck Hf) as [n Hn]. rewrite Hn, bind_ret.
  rewrite py_div_ok by assumption. rewrite bind_ret.
  rewrite cot_ratio_ok by assumption. rewrite bind_ret.
  eexists. reflexivity.
Qed.

(** At steel level 1 and on inputs where no division fails, [v_rd]
    returns the minimum of the two resistances, which does not exceed
    [v_rd_max]. *)
Lemma v_rd_level_1_capped
  (approx_lvl_c fck z bw dg E As Med Ved Ned delta_e alfa gamma_c
     asw sw fywd theta : R) :
  0 < fck -> gamma_c <> 0 -> sw <> 0 ->
  sin (theta * PI / 180) <> 0 -> sin (alfa * PI / 180) <> 0 ->
  exists s m,
    v_rds asw sw z fywd theta (Some alfa) = ret (Float s)
    /\ v_rd_max 1 fck bw theta z E As Med Ved Ned delta_e
         (Some alfa) (Some gamma_c) = ret (Float m)
    /\ v_rd approx_lvl_c 1 true fck z bw dg E As Med Ved Ned delta_e
         alfa gamma_c asw sw fywd theta
       = ret (Float (if Rlt_dec m s then m else s))
    /\ (if Rlt_dec m s then m else s) <= m.
Proof.
  intros Hf Hg Hsw Ht Ha.
  destruct (v_rd_max_approx1_returns fck bw theta z alfa gamma_c Hf Hg Ht Ha)
    as [m Hm].
  assert (Hmax : v_rd_max 1 fck bw theta z E As Med Ved Ned delta_e
                   (Some alfa) (Some gamma_c) = ret (Float m)).
  { unfold v_rd_max. rewrite py_eq_refl. exact Hm. }
  eexists. exists m. split; [apply v_rds_value; assumption |].
  split; [exact Hmax |]. split.
  - rewrite v_rd_reinforced_low by lra.
    rewrite v_rds_value by assumption. rewrite bind_ret.
    rewrite Hmax, bind_ret. reflexivity.
  - destruct (Rlt_dec m _); lra.
Qed.

(** At steel level 2, [v_rd] with reinforcement ends with an
    exception on every input. *)
Lemma v_rd_level_2_raises
  (approx_lvl_c fck z bw dg E As Med Ved Ned delta_e alfa gamma_c
     asw sw fywd theta : R) :
  raises (v_rd approx_lvl_c 2 true fck z bw dg E As Med Ved Ned delta_e
            alfa gamma_c asw sw fywd theta).
Proof.
  rewrite v_rd_reinforced_low by lra.
  apply raises_bind_all; intros s. apply raises_bind.
  unfold v_rd_max. rewrite (py_eq_neq 2 1) by lra. rewrite py_eq_refl.
  apply v_rd_max_approx2_raises.
Qed.

(** C3 (the code departs from the claim).  On the case of the
    reference suite for [v_rd] with reinforcement and steel level 2,
    expected to be about 232749, [v_rd] returns no minimum: it raises
    [TypeError]; and so it does, with some exception, on every input
    of that level. *)
Theorem v_rd_level_2_reference_input_raises :
  v_rd 2 2 true 35 180 200 16 200000 2000 0 2000 0 20 90 1.5 500 200 434 40
  = raise TypeError
  /\ forall v,
       ~ returns (v_rd 2 2 true 35 180 200 16 200000 2000 0 2000 0 20 90
                    1.5 500 200 434 40) v.
Proof.
  split.
  - rewrite v_rd_reinforced_low by lra.
    rewrite v_rds_value; [| lra | apply sin_degrees_neq_0; lra
                          | apply sin_degrees_neq_0; lra].
    rewrite bind_ret. unfold v_rd_max.
    rewrite (py_eq_neq 2 1) by lra. rewrite py_eq_refl. unfold or_default.
    rewrite v_rd_max_approx2_type_error by lra. reflexivity.
  - intros v. apply raises_not_returns, v_rd_level_2_raises.
Qed.

(** ** Default values of the stirrup inclination *)

Lemma cot_PI4 : cot (PI / 4) = 1.
Proof.
  unfold cot. rewrite cos_PI4, sin_PI4.
  assert (0 < sqrt 2) by (apply sqrt_lt_R0; lra). field. lra.
Qed.

Lemma cot_PI2 : cot (PI / 2) = 0.
Proof. unfold cot. rewrite cos_PI2, sin_PI2. lra. Qed.

(** The default of [alpha] in [v_rds], read in degrees like the body
    does, is an angle of [PI / 2] degrees: about 1.57 degrees. *)
Lemma default_alpha_small : 0 < PI / 2 * PI / 180 < PI / 2.
Proof.
  pose proof PI_RGT_0 as H0. pose proof PI_4 as H4. split.
  - apply Rmult_lt_0_compat; [| lra]. apply Rmult_lt_0_compat; lra.
  - assert (PI * PI <= 4 * PI) by (apply Rmult_le_compat_r; lra). lra.
Qed.

(** With the default inclination, the stirrup angle of
    [v_rd_max_approx1] is 0 and [1 / tan(0)] divides by zero. *)
Lemma v_rd_max_approx1_default_alfa_raises
  (fck bw theta z : R) (gamma_c : option R) :
  raises (v_rd_max_approx1 fck bw theta z None gamma_c).
Proof.
  unfold v_rd_max_approx1, or_default.
  do 2 (apply raises_bind_all; intros ?).
  apply raises_bind. unfold cot_ratio.
  apply raises_bind_all; intros ct. apply raises_bind.
  rewrite inv_tan_zero; [apply raises_raise |].
  replace (0 * PI / 180) with 0 by lra. apply sin_0.
Qed.

(** C9 (the code departs from the claim).  [v_rds(1600, 50, 200, 355,
    45)] returns more than [v_rds(1600, 50, 200, 355, 45, 90)], which is
    2272000; and [v_rd_max_approx1(30, 50, 20, 200)] raises where
    [v_rd_max_approx1(30, 50, 20, 200, 90)] returns a number. *)
Theorem default_inclination_is_not_90_degrees :
  v_rds 1600 50 200 355 45 (Some 90) = ret (Float 2272000)
  /\ (exists r, v_rds 1600 50 200 355 45 None = ret (Float r) /\ 2272000 < r)
  /\ raises (v_rd_max_approx1 30 50 20 200 None None)
  /\ (exists m,
        v_rd_max_approx1 30 50 20 200 (Some 90) None = ret (Float m)).
Proof.
  assert (H45 : 45 * PI / 180 = PI / 4) by lra.
  assert (H90 : 90 * PI / 180 = PI / 2) by lra.
  assert (Hs45 : sin (45 * PI / 180) <> 0)
    by (apply sin_degrees_neq_0; lra).
  pose proof default_alpha_small as [Ha0 Ha2].
  pose proof PI_RGT_0 as Hpi.
  set (a := PI / 2 * PI / 180) in *.
  assert (Hsa : 0 < sin a) by (apply sin_gt_0; lra).
  assert (Hca : 0 < cos a) by (apply cos_gt_0; lra).
  repeat split.
  - rewrite v_rds_value; [| lra | assumption | apply sin_degrees_neq_0; lra].
    rewrite H45, H90, cot_PI4, cot_PI2, sin_PI2.
    unfold ret. do 3 f_equal. lra.
  - unfold v_rds, or_default. fold a.
    rewrite chained_comparison_false, bind_ret.
    rewrite py_div_ok by lra. rewrite bind_ret.
    rewrite inv_tan_ok by assumption. rewrite bind_ret.
    rewrite inv_tan_ok by lra. rewrite bind_ret.
    eexists. split; [reflexivity |].
    rewrite H45, cot_PI4. unfold cot.
    replace (1600 / 50 * 200 * 355 * (1 + cos a / sin a) * sin a)
      with (2272000 * (sin a + cos a)) by (field; lra).
    pose proof (sin2_cos2 a) as Hsc. unfold Rsqr in Hsc. nra.
  - apply v_rd_max_approx1_default_alfa_raises.
  - unfold v_rd_max_approx1 at 1.
    change (or_default (Some 90) 0) with 90.
    change (or_default None 1.5) with 1.5.
    destruct (nfc_of_pos 30) as [n Hn]; [lra |]. rewrite Hn, bind_ret.
    rewrite py_div_ok by lra. rewrite bind_ret.
    rewrite cot_ratio_ok by (apply sin_degrees_neq_0; lra).
    rewrite bind_ret. eexists. reflexivity.
Qed.

(** ** [v_rds]: the formula and its reference value *)

Lemma PI_bounds : 3.1415 <= PI <= 3.1421.
Proof.
  pose proof (PI_2_3_7_ineq 1) as [Hlo Hhi].
  unfold sum_f_R0, tg_alt, PI_2_3_7_tg, Ratan_seq in Hlo, Hhi.
  simpl in Hlo, Hhi. split; lra.
Qed.

(** Sine and cosine of 25 degrees, from the monotonicity of both
    functions on the first quadrant and their Taylor polynomials at
    rational end points. *)
Lemma sin_cos_25_degrees :
  0.4224 <= sin (25 * PI / 180) <= 0.4227
  /\ 0.9062 <= cos (25 * PI / 180) <= 0.9064.
Proof.
  pose proof PI_bounds as [Hl Hh].
  set (x := 25 * PI / 180).
  assert (Hx : 0.4363 < x < 0.43642) by (unfold x; lra).
  assert (Hs1 : sin 0.4363 <= sin x) by (apply sin_incr_1; lra).
  assert (Hs2 : sin x <= sin 0.43642) by (apply sin_incr_1; lra).
  assert (Hc1 : cos 0.43642 <= cos x) by (apply cos_decr_1; lra).
  assert (Hc2 : cos x <= cos 0.4363) by (apply cos_decr_1; lra).
  destruct (pre_sin_bound 0.4363 0) as [Hsl _]; [lra | lra |].
  destruct (pre_sin_bound 0.43642 0) as [_ Hsh]; [lra | lra |].
  destruct (pre_cos_bound 0.43642 1) as [Hcl _]; [lra | lra |].
  destruct (pre_cos_bound 0.4363 0) as [_ Hch]; [lra | lra |].
  unfold sin_approx, sin_term, cos_approx, cos_term, sum_f_R0 in *.
  simpl in Hsl, Hsh, Hcl, Hch.
  repeat split; lra.
Qed.

Lemma cot_25_degrees : 2.1438 <= cot (25 * PI / 180) <= 2.1459.
Proof.
  destruct sin_cos_25_degrees as [[Hs1 Hs2] [Hc1 Hc2]]. unfold cot.
  set (s := sin (25 * PI / 180)) in *. set (c := cos (25 * PI / 180)) in *.
  assert (Hq : c / s * s = c) by (field; lra).
  split; nra.
Qed.

Lemma cot_PI6 : cot (PI / 6) = sqrt 3.
Proof. unfold cot. rewrite cos_PI6, sin_PI6. lra. Qed.

(** C8, counterexample: with [sw] nonzero and [theta = 0], [v_rds]
    does not return the value of the formula; the division by
    [tan(0)] raises. *)
Lemma v_rds_zero_angle_raises :
  50 <> 0
  /\ v_rds 1600 50 200 355 0 (Some 30) = raise ZeroDivisionError
  /\ ~ returns (v_rds 1600 50 200 355 0 (Some 30))
         (Float (1600 / 50 * 200 * 355
                 * (cot (0 * PI / 180) + cot (30 * PI / 180))
                 * sin (30 * PI / 180))).
Proof.
  assert (H : v_rds 1600 50 200 355 0 (Some 30) = raise ZeroDivisionError).
  { unfold v_rds, or_default.
    rewrite chained_comparison_false, bind_ret.
    rewrite py_div_ok by lra. rewrite bind_ret.
    rewrite inv_tan_zero; [reflexivity |].
    replace (0 * PI / 180) with 0 by lra. apply sin_0. }
  split; [lra |]. split; [exact H |].
  rewrite H. intros Hr. discriminate Hr.
Qed.

(** C8, as amended.  When [sw] is nonzero and neither angle has a zero
    sine (as for every angle strictly between 0 and 180 degrees),
    [v_rds] returns [(asw / sw) * z * fywd * (cot theta + cot alfa) *
    sin alfa] with both angles converted from degrees to radians; and
    [v_rds(1600, 50, 200, 355, 25, 30)] is within 0.1 percent of
    4403769. *)
Theorem v_rds_formula (asw sw z fywd theta alfa : R) :
  sw <> 0 -> sin (theta * PI / 180) <> 0 -> sin (alfa * PI / 180) <> 0 ->
  v_rds asw sw z fywd theta (Some alfa) =
    ret (Float (asw / sw * z * fywd
                * (cot (theta * PI / 180) + cot (alfa * PI / 180))
                * sin (alfa * PI / 180)))
  /\ exists r,
       v_rds 1600 50 200 355 25 (Some 30) = ret (Float r)
       /\ Rabs (r - 4403769) <= 0.001 * 4403769.
Proof.
  intros Hsw Ht Ha. split; [apply v_rds_value; assumption |].
  eexists. split.
  - apply v_rds_value; [lra | |]; apply sin_degrees_neq_0; lra.
  - replace (30 * PI / 180) with (PI / 6) by lra.
    rewrite cot_PI6, sin_PI6.
    destruct cot_25_degrees as [Hc1 Hc2].
    destruct (sqrt_between 3 1.73205 1.73206) as [Hq1 Hq2]; try lra.
    apply Rabs_le. split; lra.
Qed.

(** The amended C8 at the first case of the reference suite. *)
Lemma v_rds_formula_witness :
  v_rds 1600 50 200 355 25 (Some 30) =
    ret (Float (1600 / 50 * 200 * 355
                * (cot (25 * PI / 180) + cot (30 * PI / 180))
                * sin (30 * PI / 180)))
  /\ exists r,
       v_rds 1600 50 200 355 25 (Some 30) = ret (Float r)
       /\ Rabs (r - 4403769) <= 0.001 * 4403769.
Proof.
  apply (v_rds_formula 1600 50 200 355 25 30).
  - lra.
  - apply sin_degrees_neq_0; lra.
  - apply sin_degrees_neq_0; lra.
Defined.


(** * Further properties of the module *)

(** ** No function of the module emits a warning *)

Lemma py_mul_warnings (a b : value) : warnings (py_mul a b) = [].
Proof. destruct a, b; reflexivity. Qed.

Lemma py_add_warnings (a b : value) : warnings (py_add a b) = [].
Proof. destruct a, b; reflexivity. Qed.

Lemma py_min2_warnings (a b : value) : warnings (py_min2 a b) = [].
Proof. destruct a, b; reflexivity. Qed.

Lemma py_max2_warnings (a b : value) : warnings (py_max2 a b) = [].
Proof. destruct a, b; reflexivity. Qed.

Lemma num_warnings (v : value) : warnings (num v) = [].
Proof. destruct v; reflexivity. Qed.

Lemma py_fold1_warnings (f : value -> value -> py value) (v : value) :
  (forall a b, warnings (f a b) = []) -> warnings (py_fold1 f v) = [].
Proof.
  intros Hf. destruct v as [r | | | items | name]; try reflexivity.
  destruct items as [| x xs]; [reflexivity |]. simpl.
  assert (H : forall acc : py value,
             warnings acc = [] ->
             warnings (fold_left (fun acc y => a <- acc ;; f a y) xs acc) = []).
  { induction xs as [| y ys IH]; intros acc Hacc; simpl; [exact Hacc |].
    apply IH. apply warnings_bind; [exact Hacc | intros a; apply Hf]. }
  apply H. reflexivity.
Qed.

Lemma py_min1_warnings (v : value) : warnings (py_min1 v) = [].
Proof. apply py_fold1_warnings, py_min2_warnings. Qed.

Lemma py_max1_warnings (v : value) : warnings (py_max1 v) = [].
Proof. apply py_fold1_warnings, py_max2_warnings. Qed.

Create HintDb nowarn.
#[local] Hint Resolve py_div_warnings inv_tan_warnings py_mul_warnings
  py_add_warnings py_min2_warnings py_max2_warnings num_warnings
  py_min1_warnings py_max1_warnings : nowarn.

(** Discharges [warnings c = []] along the binds and branches of [c]. *)
Ltac no_warn :=
  cbv zeta;
  repeat (intros;
          first
            [ solve [auto with nowarn]
            | apply warnings_bind
            | match goal with
              | |- warnings (if ?b then _ else _) = [] => destruct b
              end
            | reflexivity ]).

Lemma epsilon_x_warnings (E As Med Ved Ned z delta_e : R) :
  warnings (epsilon_x E As Med Ved Ned z delta_e) = [].
Proof. unfold epsilon_x. no_warn. Qed.

Lemma nfc_of_warnings (fck : R) : warnings (nfc_of fck) = [].
Proof. unfold nfc_of. no_warn. Qed.

Lemma fsqr_of_warnings (fck : R) : warnings (fsqr_of fck) = [].
Proof. unfold fsqr_of. no_warn. Qed.

Lemma cot_ratio_warnings (theta alfa : R) :
  warnings (cot_ratio theta alfa) = [].
Proof. unfold cot_ratio. no_warn. Qed.

#[local] Hint Resolve epsilon_x_warnings nfc_of_warnings fsqr_of_warnings
  cot_ratio_warnings v_rds_never_warns : nowarn.

Lemma k_denominator_warnings (theta E As Med Ved Ned z delta_e : R) :
  warnings (k_denominator epsilon_x theta E As Med Ved Ned z delta_e) = [].
Proof. unfold k_denominator. no_warn. Qed.

#[local] Hint Resolve k_denominator_warnings : nowarn.

Lemma v_rd_max_warnings
  (approx_lvl_s fck bw theta z E As Med Ved Ned delta_e : R)
  (alfa gamma_c : option R) :
  warnings (v_rd_max approx_lvl_s fck bw theta z E As Med Ved Ned delta_e
              alfa gamma_c) = [].
Proof.
  unfold v_rd_max, v_rd_max_approx1, v_rd_max_approx2, v_rd_max_approx3,
    v_rd_max_approx2_on, v_rd_max_approx3_on.
  no_warn.
Qed.

#[local] Hint Resolve v_rd_max_warnings : nowarn.

Lemma v_rdc_warnings
  (approx_lvl_c approx_lvl_s fck z bw dg E As Med Ved Ned delta_e alfa : R)
  (gamma_c : option R) :
  warnings (v_rdc approx_lvl_c approx_lvl_s fck z bw dg E As Med Ved Ned
              delta_e alfa gamma_c) = [].
Proof.
  unfold v_rdc, v_rdc_approx1, v_rdc_approx2, v_rds_approx3. no_warn.
Qed.

#[local] Hint Resolve v_rdc_warnings : nowarn.

(** X1.  [v_rd] never emits a warning: its validity check on the
    concrete level is the condition [approx_lvl_c == 1 or 2], true for
    every level, and none of the functions it calls warns either. *)
Theorem v_rd_never_warns
  (approx_lvl_c approx_lvl_s : R) (reinforcment : bool)
  (fck z bw dg E As Med Ved Ned delta_e alfa gamma_c asw sw fywd theta : R) :
  warnings (v_rd approx_lvl_c approx_lvl_s reinforcment fck z bw dg E As Med
              Ved Ned delta_e alfa gamma_c asw sw fywd theta) = [].
Proof.
  unfold v_rd. rewrite v_rd_level_check. no_warn.
Qed.

(** ** Error behaviour of the leaf formulas *)

(** X2.  [epsilon_x] never returns.  It raises [ZeroDivisionError] when
    [E * As] or [z] is zero and [TypeError] otherwise, and emits no
    warning. *)
Theorem epsilon_x_error_kinds (E As Med Ved Ned z delta_e : R) :
  epsilon_x E As Med Ved Ned z delta_e =
  raise (if Req_dec_T (E * As) 0 then ZeroDivisionError
         else if Req_dec_T z 0 then ZeroDivisionError
         else TypeError).
Proof.
  destruct (Req_dec_T (E * As) 0) as [HEA | HEA].
  - unfold epsilon_x. replace (2 * E * As) with 0 by lra.
    rewrite py_div_zero. reflexivity.
  - destruct (Req_dec_T z 0) as [Hz | Hz].
    + unfold epsilon_x. rewrite (py_div_ok 1) by lra. rewrite bind_ret.
      subst z. rewrite py_div_zero. reflexivity.
    + apply epsilon_x_type_error; assumption.
Qed.

Lemma returns_ret_inv {A} (a b : A) : returns (ret a) b -> a = b.
Proof. unfold returns, result, ret. simpl. congruence. Qed.

Lemma returns_raise_inv {A} (e : exn) (a : A) : ~ returns (raise e) a.
Proof. unfold returns, result, raise. simpl. discriminate. Qed.


(** ** Closed forms of [v_rds] *)

(** X4.  For vertical stirrups ([alfa = 90]) the steel resistance is
    [(asw / sw) * z * fywd * cot theta]. *)
Theorem v_rds_vertical_stirrups (asw sw z fywd theta : R) :
  sw <> 0 -> sin (theta * PI / 180) <> 0 ->
  v_rds asw sw z fywd theta (Some 90)
  = ret (Float (asw / sw * z * fywd * cot (theta * PI / 180))).
Proof.
  intros Hsw Ht.
  assert (H90 : 90 * PI / 180 = PI / 2) by lra.
  rewrite v_rds_value; [| assumption | assumption |].
  - rewrite H90, cot_PI2, sin_PI2. unfold ret. do 3 f_equal. lra.
  - rewrite H90, sin_PI2. lra.
Qed.

Lemma v_rds_vertical_stirrups_witness :
  v_rds 1600 50 200 355 25 (Some 90)
  = ret (Float (1600 / 50 * 200 * 355 * cot (25 * PI / 180))).
Proof.
  apply (v_rds_vertical_stirrups 1600 50 200 355 25).
  - lra.
  - apply sin_degrees_neq_0; lra.
Defined.



(** ** [v_rdc_approx1]: the strength cap, the bounds, the errors *)

Lemma fsqr_of_negative (fck : R) : fck < 0 -> fsqr_of fck = raise TypeError.
Proof.
  intros H. unfold fsqr_of, py_pow_frac.
  destruct (Rlt_dec fck 0); [reflexivity | contradiction].
Qed.

Lemma fsqr_of_nonneg (fck : R) :
  0 <= fck ->
  fsqr_of fck = ret (if Rlt_dec 8 (sqrt fck) then 8 else sqrt fck).
Proof.
  intros H. destruct (Req_dec_T fck 0) as [H0 | H0].
  - subst fck. unfold fsqr_of, py_pow_frac. rewrite sqrt_0.
    destruct (Rlt_dec 0 0); [lra |].
    destruct (Req_dec_T 0 0); [| contradiction]. simpl.
    destruct (Rlt_dec 8 0); [lra | reflexivity].
  - apply fsqr_of_pos. lra.
Qed.

Lemma fsqr_range (fck : R) :
  0 <= (if Rlt_dec 8 (sqrt fck) then 8 else sqrt fck) <= 8.
Proof.
  pose proof (sqrt_pos fck). destruct (Rlt_dec 8 (sqrt fck)); lra.
Qed.

Lemma fsqr_of_capped (fck : R) : 64 <= fck -> fsqr_of fck = ret 8.
Proof.
  intros H. rewrite fsqr_of_nonneg by lra.
  destruct (sqrt_between 64 8 8) as [H8 _]; try lra.
  assert (Hs : 8 <= sqrt fck).
  { apply Rle_trans with (sqrt 64); [exact H8 | apply sqrt_le_1_alt, H]. }
  destruct (Rlt_dec 8 (sqrt fck)); [reflexivity |].
  unfold ret. do 2 f_equal. lra.
Qed.

(** X6.  From a characteristic strength of 64 MPa on, [v_rdc_approx1] no
    longer depends on the strength: [sqrt fck] is capped at 8. *)
Theorem v_rdc_approx1_strength_cap (fck z bw : R) (gamma_c : option R) :
  64 <= fck ->
  v_rdc_approx1 fck z bw gamma_c = v_rdc_approx1 64 z bw gamma_c.
Proof.
  intros H. unfold v_rdc_approx1.
  rewrite (fsqr_of_capped fck H), (fsqr_of_capped 64) by lra.
  reflexivity.
Qed.

Lemma v_rdc_approx1_strength_cap_witness :
  v_rdc_approx1 90 180 300 (Some 1.5) = v_rdc_approx1 64 180 300 (Some 1.5).
Proof. apply (v_rdc_approx1_strength_cap 90 180 300 (Some 1.5)). lra. Defined.

Lemma v_rdc_approx1_nonneg_value (fck z bw gamma_c : R) :
  0 <= fck -> 1000 + 1.25 * z <> 0 -> gamma_c <> 0 ->
  v_rdc_approx1 fck z bw (Some gamma_c) =
  ret (Float (180 / (1000 + 1.25 * z)
              * (if Rlt_dec 8 (sqrt fck) then 8 else sqrt fck)
              * z * bw / gamma_c)).
Proof.
  intros Hf Hz Hg. unfold v_rdc_approx1, or_default.
  rewrite fsqr_of_nonneg by assumption. rewrite bind_ret.
  rewrite py_div_ok by assumption. rewrite bind_ret.
  rewrite py_div_ok by assumption. rewrite bind_ret.
  reflexivity.
Qed.

(** X7.  The three outcomes of [v_rdc_approx1]: [TypeError] for a negative
    strength (its square root is complex), [ZeroDivisionError] when
    [1000 + 1.25 * z] or [gamma_c] is zero, and otherwise the number
    [kv * min(sqrt fck, 8) * z * bw / gamma_c] with
    [kv = 180 / (1000 + 1.25 * z)]. *)
Theorem v_rdc_approx1_outcomes (fck z bw gamma_c : R) :
  (fck < 0 -> v_rdc_approx1 fck z bw (Some gamma_c) = raise TypeError)
  /\ (0 <= fck -> 1000 + 1.25 * z = 0 \/ gamma_c = 0 ->
      v_rdc_approx1 fck z bw (Some gamma_c) = raise ZeroDivisionError)
  /\ (0 <= fck -> 1000 + 1.25 * z <> 0 -> gamma_c <> 0 ->
      v_rdc_approx1 fck z bw (Some gamma_c) =
      ret (Float (180 / (1000 + 1.25 * z)
                  * (if Rlt_dec 8 (sqrt fck) then 8 else sqrt fck)
                  * z * bw / gamma_c))).
Proof.
  split; [| split].
  - intros H. unfold v_rdc_approx1. rewrite fsqr_of_negative by assumption.
    reflexivity.
  - intros Hf Hzg. unfold v_rdc_approx1, or_default.
    rewrite fsqr_of_nonneg by assumption. rewrite bind_ret.
    destruct (Req_dec_T (1000 + 1.25 * z) 0) as [Hz | Hz].
    + rewrite Hz, py_div_zero. reflexivity.
    + rewrite py_div_ok by assumption. rewrite bind_ret.
      destruct Hzg as [Hz' | Hg]; [contradiction |].
      subst gamma_c. rewrite py_div_zero. reflexivity.
  - apply v_rdc_approx1_nonneg_value.
Qed.

Lemma v_rdc_approx1_outcomes_witness :
  v_rdc_approx1 (-1) 180 300 (Some 1.5) = raise TypeError
  /\ v_rdc_approx1 35 (-800) 300 (Some 1.5) = raise ZeroDivisionError
  /\ v_rdc_approx1 35 180 300 (Some 1.5) =
     ret (Float (180 / (1000 + 1.25 * 180)
                 * (if Rlt_dec 8 (sqrt 35) then 8 else sqrt 35)
                 * 180 * 300 / 1.5)).
Proof.
  split; [| split].
  - apply (proj1 (v_rdc_approx1_outcomes (-1) 180 300 1.5)). lra.
  - apply (proj1 (proj2 (v_rdc_approx1_outcomes 35 (-800) 300 1.5)));
      [lra |]. left. lra.
  - apply (proj2 (proj2 (v_rdc_approx1_outcomes 35 180 300 1.5))); lra.
Defined.

(** X8.  For a nonnegative strength, lever arm and web width and a positive
    safety factor, [v_rdc_approx1] returns a number between 0 and
    [1152 * bw / gamma_c]: [kv * z] stays below 144 and the strength
    factor below 8. *)
Theorem v_rdc_approx1_bounds (fck z bw gamma_c : R) :
  0 <= fck -> 0 <= z -> 0 <= bw -> 0 < gamma_c ->
  exists r,
    v_rdc_approx1 fck z bw (Some gamma_c) = ret (Float r)
    /\ 0 <= r <= 1152 * bw / gamma_c.
Proof.
  intros Hf Hz Hb Hg. eexists.
  split; [apply v_rdc_approx1_nonneg_value; lra |].
  pose proof (fsqr_range fck) as [Hs0 Hs8].
  set (f := if Rlt_dec 8 (sqrt fck) then 8 else sqrt fck) in *.
  set (q := 180 / (1000 + 1.25 * z)).
  assert (HqD : q * (1000 + 1.25 * z) = 180) by (unfold q; field; lra).
  assert (Hq0 : 0 < q) by (unfold q; apply Rdiv_lt_0_compat; lra).
  assert (Hqz : 0 <= q * z <= 144) by nra.
  assert (Hfb : 0 <= f * bw <= 8 * bw) by nra.
  assert (Hn : 0 <= q * f * z * bw <= 1152 * bw).
  { replace (q * f * z * bw) with ((q * z) * (f * bw)) by ring. nra. }
  assert (Hi : 0 < / gamma_c) by (apply Rinv_0_lt_compat, Hg).
  unfold Rdiv. split.
  - apply Rmult_le_pos; lra.
  - apply Rmult_le_compat_r; lra.
Qed.

Lemma v_rdc_approx1_bounds_witness :
  exists r,
    v_rdc_approx1 35 180 300 (Some 1.5) = ret (Float r)
    /\ 0 <= r <= 1152 * 300 / 1.5.
Proof. apply (v_rdc_approx1_bounds 35 180 300 1.5); lra. Defined.

(** ** [v_rd_max] at level 1 *)

Lemma Rpower_1_l (c : R) : Rpower 1 c = 1.
Proof. unfold Rpower. rewrite ln_1, Rmult_0_r. apply exp_0. Qed.

Lemma nfc_of_value (fck : R) : 0 < fck -> nfc_of fck = ret (nfc_value fck).
Proof.
  intros H. unfold nfc_of.
  rewrite py_div_ok by lra. rewrite bind_ret.
  rewrite py_div_ok by lra. rewrite bind_ret.
  assert (Hb : 0 < 30 / fck) by (apply Rdiv_lt_0_compat; lra).
  rewrite py_pow_frac_pos by assumption. simpl.
  unfold ret, nfc_value. do 2 f_equal.
  destruct (Rle_dec fck 30) as [Hle | Hgt].
  - assert (H1 : 1 <= 30 / fck).
    { apply Rmult_le_reg_r with fck; [lra |].
      replace (30 / fck * fck) with 30 by (field; lra). lra. }
    assert (Hp : 1 <= Rpower (30 / fck) (1 / 3)).
    { apply Rle_trans with (Rpower 1 (1 / 3)); [rewrite Rpower_1_l; lra |].
      apply Rle_Rpower_l; lra. }
    destruct (Rlt_dec 1 (Rpower (30 / fck) (1 / 3))); lra.
  - assert (H1 : 30 / fck < 1).
    { apply Rmult_lt_reg_r with fck; [lra |].
      replace (30 / fck * fck) with 30 by (field; lra). lra. }
    assert (Hp : Rpower (30 / fck) (1 / 3) < 1).
    { apply Rlt_le_trans with (Rpower 1 (1 / 3)); [| rewrite Rpower_1_l; lra].
      apply Rlt_Rpower_l; lra. }
    destruct (Rlt_dec 1 (Rpower (30 / fck) (1 / 3))); lra.
Qed.

Lemma nfc_value_range (fck : R) : 0 < fck -> 0 < nfc_value fck <= 1.
Proof.
  intros H. unfold nfc_value. destruct (Rle_dec fck 30) as [Hle | Hgt].
  - lra.
  - split; [apply exp_pos |].
    apply Rle_trans with (Rpower 1 (1 / 3)); [| rewrite Rpower_1_l; lra].
    apply Rle_Rpower_l; [lra |].
    split; [apply Rdiv_lt_0_compat; lra |].
    apply Rmult_le_reg_r with fck; [lra |].
    replace (30 / fck * fck) with 30 by (field; lra). lra.
Qed.

(** [(cot t + cot a) / (1 + cot t ^ 2) = (cot t + cot a) * sin t ^ 2]. *)
Lemma cot_ratio_sin2 (t a : R) :
  sin t <> 0 ->
  (cot t + cot a) / (1 + cot t ^ 2) = (cot t + cot a) * sin t ^ 2.
Proof.
  intros Ht. unfold cot.
  pose proof (sin2_cos2 t) as Hsc. unfold Rsqr in Hsc.
  set (x := cos t / sin t + cos a / sin a).
  set (d := 1 + (cos t / sin t) ^ 2).
  assert (Hd : d * sin t ^ 2 = 1).
  { replace (d * sin t ^ 2) with (sin t * sin t + cos t * cos t)
      by (unfold d; field; exact Ht).
    exact Hsc. }
  assert (Hd0 : d <> 0) by (intros H0; rewrite H0 in Hd; lra).
  replace (x * sin t ^ 2) with (x * (d * sin t ^ 2) / d) by (field; exact Hd0).
  rewrite Hd. lra.
Qed.

Lemma v_rd_max_level_1_value
  (fck bw theta z E As Med Ved Ned delta_e alfa gamma_c : R) :
  0 < fck -> gamma_c <> 0 ->
  sin (theta * PI / 180) <> 0 -> sin (alfa * PI / 180) <> 0 ->
  v_rd_max 1 fck bw theta z E As Med Ved Ned delta_e
    (Some alfa) (Some gamma_c)
  = ret (Float (0.55 * nfc_value fck * (fck / gamma_c) * bw * z
                * ((cot (theta * PI / 180) + cot (alfa * PI / 180))
                   * sin (theta * PI / 180) ^ 2))).
Proof.
  intros Hf Hg Ht Ha. unfold v_rd_max. rewrite py_eq_refl.
  unfold v_rd_max_approx1, or_default.
  rewrite nfc_of_value by assumption. rewrite bind_ret.
  rewrite py_div_ok by assumption. rewrite bind_ret.
  rewrite cot_ratio_ok by assumption. rewrite bind_ret.
  rewrite cot_ratio_sin2 by assumption. reflexivity.
Qed.

(** X9.  At steel level 1, for a positive strength, a nonzero safety factor
    and angles of nonzero sine, [v_rd_max] returns
    [0.55 * nfc * (fck / gamma_c) * bw * z * (cot theta + cot alfa)
     * sin theta ^ 2], whatever [E], [As], [Med], [Ved], [Ned] and
    [delta_e]; the strength factor [nfc] lies in (0, 1] and is 1 up to
    30 MPa. *)
Theorem v_rd_max_level_1_closed_form
  (fck bw theta z E As Med Ved Ned delta_e alfa gamma_c : R) :
  0 < fck -> gamma_c <> 0 ->
  sin (theta * PI / 180) <> 0 -> sin (alfa * PI / 180) <> 0 ->
  exists nfc,
    v_rd_max 1 fck bw theta z E As Med Ved Ned delta_e
      (Some alfa) (Some gamma_c)
    = ret (Float (0.55 * nfc * (fck / gamma_c) * bw * z
                  * ((cot (theta * PI / 180) + cot (alfa * PI / 180))
                     * sin (theta * PI / 180) ^ 2)))
    /\ 0 < nfc <= 1
    /\ (fck <= 30 -> nfc = 1)
    /\ (30 < fck -> nfc = Rpower (30 / fck) (1 / 3)).
Proof.
  intros Hf Hg Ht Ha. exists (nfc_value fck).
  split; [apply v_rd_max_level_1_value; assumption |].
  split; [apply nfc_value_range, Hf |].
  unfold nfc_value. split; intros H; destruct (Rle_dec fck 30); lra.
Qed.

Lemma v_rd_max_level_1_closed_form_witness :
  exists nfc,
    v_rd_max 1 30 50 20 200 210000 1000 200000000 50000 10000 50
      (Some 20) (Some 1.5)
    = ret (Float (0.55 * nfc * (30 / 1.5) * 50 * 200
                  * ((cot (20 * PI / 180) + cot (20 * PI / 180))
                     * sin (20 * PI / 180) ^ 2)))
    /\ 0 < nfc <= 1
    /\ (30 <= 30 -> nfc = 1)
    /\ (30 < 30 -> nfc = Rpower (30 / 30) (1 / 3)).
Proof.
  apply (v_rd_max_level_1_closed_form 30 50 20 200 210000 1000 200000000
           50000 10000 50 20 1.5).
  - lra.
  - lra.
  - apply sin_degrees_neq_0; lra.
  - apply sin_degrees_neq_0; lra.
Defined.

(** X10.  For vertical stirrups the level-1 maximum resistance never exceeds
    [0.275 * (fck / gamma_c) * bw * z], the value it would take at a
    strut angle of 45 degrees with [nfc = 1]. *)
Theorem v_rd_max_level_1_vertical_bound
  (fck bw theta z E As Med Ved Ned delta_e gamma_c : R) :
  0 < fck -> 0 < gamma_c -> 0 <= bw -> 0 <= z -> 0 < theta < 180 ->
  exists m,
    v_rd_max 1 fck bw theta z E As Med Ved Ned delta_e
      (Some 90) (Some gamma_c) = ret (Float m)
    /\ m <= 0.275 * (fck / gamma_c) * bw * z.
Proof.
  intros Hf Hg Hb Hz Ht.
  assert (Hst : sin (theta * PI / 180) <> 0)
    by (apply sin_degrees_neq_0; exact Ht).
  assert (H90 : 90 * PI / 180 = PI / 2) by lra.
  eexists. split.
  - apply v_rd_max_level_1_value; try assumption; try lra.
    rewrite H90, sin_PI2. lra.
  - rewrite H90, cot_PI2. unfold cot.
    set (s := sin (theta * PI / 180)) in *.
    set (c := cos (theta * PI / 180)).
    pose proof (sin2_cos2 (theta * PI / 180)) as Hsc.
    unfold Rsqr in Hsc. fold s c in Hsc.
    replace ((c / s + 0) * s ^ 2) with (c * s) by (field; exact Hst).
    pose proof (nfc_value_range fck Hf) as [Hn0 Hn1].
    set (n := nfc_value fck) in *.
    assert (Hcs : c * s <= 1 / 2).
    { pose proof (Rle_0_sqr (c - s)) as Hsq. unfold Rsqr in Hsq.
      replace ((c - s) * (c - s)) with (s * s + c * c - 2 * (c * s)) in Hsq
        by ring.
      lra. }
    assert (Hncs : n * (c * s) <= 1 / 2).
    { destruct (Rle_dec (c * s) 0) as [Hneg | Hpos].
      - assert (n * (c * s) <= 0); [| lra].
        replace 0 with (n * 0) by ring. apply Rmult_le_compat_l; lra.
      - assert (n * (c * s) <= 1 * (c * s)); [| lra].
        apply Rmult_le_compat_r; lra. }
    assert (Hq : 0 < fck / gamma_c) by (apply Rdiv_lt_0_compat; lra).
    set (q := fck / gamma_c) in *.
    assert (Hk : 0 <= 0.55 * q * bw * z).
    { apply Rmult_le_pos; [apply Rmult_le_pos |]; try assumption. lra. }
    replace (0.55 * n * q * bw * z * (c * s))
      with ((0.55 * q * bw * z) * (n * (c * s))) by ring.
    replace (0.275 * q * bw * z) with ((0.55 * q * bw * z) * (1 / 2))
      by lra.
    apply Rmult_le_compat_l; assumption.
Qed.

Lemma v_rd_max_level_1_vertical_bound_witness :
  exists m,
    v_rd_max 1 35 200 40 180 200000 2000 0 2000 0 20
      (Some 90) (Some 1.5) = ret (Float m)
    /\ m <= 0.275 * (35 / 1.5) * 200 * 180.
Proof.
  apply (v_rd_max_level_1_vertical_bound 35 200 40 180 200000 2000 0 2000
           0 20 1.5); lra.
Defined.


(** ** Which levels return a value *)

Lemma v_rdc_approx2_raises
  (fck z bw dg E As Med Ved Ned delta_e : R) (gamma_c : option R) :
  raises (v_rdc_approx2 fck z bw dg E As Med Ved Ned delta_e gamma_c).
Proof.
  unfold v_rdc_approx2.
  do 4 (apply raises_bind_all; intros ?).
  apply raises_bind, epsilon_x_raises.
Qed.

Lemma v_rds_approx3_raises
  (fck z bw E As Med Ved Ned delta_e alfa : R) (gamma_c : option R) :
  raises (v_rds_approx3 fck z bw E As Med Ved Ned delta_e alfa gamma_c).
Proof.
  unfold v_rds_approx3.
  apply raises_bind_all; intros fsqr.
  apply raises_bind, epsilon_x_raises.
Qed.

(** X12.  The two refined concrete formulas, [v_rdc_approx2] and
    [v_rds_approx3], end with an exception on every input: both start
    by calling [epsilon_x]. *)
Theorem refined_concrete_formulas_raise
  (fck z bw dg E As Med Ved Ned delta_e alfa : R) (gamma_c : option R) :
  raises (v_rdc_approx2 fck z bw dg E As Med Ved Ned delta_e gamma_c)
  /\ raises (v_rds_approx3 fck z bw E As Med Ved Ned delta_e alfa gamma_c).
Proof.
  split; [apply v_rdc_approx2_raises | apply v_rds_approx3_raises].
Qed.

Lemma v_rdc_approx1_returns_float (fck z bw : R) (gamma_c : option R)
  (v : value) :
  returns (v_rdc_approx1 fck z bw gamma_c) v -> exists r, v = Float r.
Proof.
  unfold v_rdc_approx1. intros H.
  apply returns_bind in H. destruct H as [fsqr [_ H]].
  apply returns_bind in H. destruct H as [kv [_ H]].
  apply returns_bind in H. destruct H as [r [_ H]].
  apply returns_ret_inv in H. exists r. symmetry. exact H.
Qed.

Lemma v_rd_max_approx1_returns_float (fck bw theta z : R)
  (alfa gamma_c : option R) (v : value) :
  returns (v_rd_max_approx1 fck bw theta z alfa gamma_c) v ->
  exists r, v = Float r.
Proof.
  unfold v_rd_max_approx1. intros H.
  apply returns_bind in H. destruct H as [nfc [_ H]].
  apply returns_bind in H. destruct H as [f [_ H]].
  apply returns_bind in H. destruct H as [r [_ H]].
  apply returns_ret_inv in H. eexists. symmetry. exact H.
Qed.

(** X13.  [v_rd_max] returns a number at level 1 only: when it returns a
    value, either the level is 1 and the value is a number, or the
    level is none of 1, 2, 3 and the value is [None]; levels 2 and 3
    always end with an exception. *)
Theorem v_rd_max_returns_only_at_level_1
  (approx_lvl_s fck bw theta z E As Med Ved Ned delta_e : R)
  (alfa gamma_c : option R) (v : value) :
  returns (v_rd_max approx_lvl_s fck bw theta z E As Med Ved Ned delta_e
             alfa gamma_c) v ->
  (approx_lvl_s = 1 /\ exists r, v = Float r)
  \/ (approx_lvl_s <> 1 /\ approx_lvl_s <> 2 /\ approx_lvl_s <> 3
      /\ v = NoneV).
Proof.
  unfold v_rd_max, py_eq. intros H.
  destruct (Req_dec_T approx_lvl_s 1) as [H1 | H1].
  { left. split; [exact H1 |].
    apply v_rd_max_approx1_returns_float in H. exact H. }
  destruct (Req_dec_T approx_lvl_s 2) as [H2 | H2].
  { exfalso. revert H. apply raises_not_returns, v_rd_max_approx2_raises. }
  destruct (Req_dec_T approx_lvl_s 3) as [H3 | H3].
  { exfalso. revert H. apply raises_not_returns.
    apply v_rd_max_approx3_on_raises. }
  right. apply returns_ret_inv in H. auto.
Qed.

Lemma v_rd_max_returns_only_at_level_1_witness :
  (4 = 1 /\ exists r, NoneV = Float r)
  \/ (4 <> 1 /\ 4 <> 2 /\ 4 <> 3 /\ NoneV = NoneV).
Proof.
  apply (v_rd_max_returns_only_at_level_1 4 30 50 20 200 210000 1000
           200000000 50000 10000 50 (Some 20) (Some 1.5) NoneV).
  unfold v_rd_max. rewrite !py_eq_neq by lra. reflexivity.
Defined.

(** X14.  [v_rdc] returns a number at concrete level 1 only: when it returns
    a value, either the level is 1 and the value is a number, or no
    branch applies and the value is [None]; level 2, and steel level 3
    at another concrete level, always end with an exception. *)
Theorem v_rdc_returns_only_at_level_1
  (approx_lvl_c approx_lvl_s fck z bw dg E As Med Ved Ned delta_e alfa : R)
  (gamma_c : option R) (v : value) :
  returns (v_rdc approx_lvl_c approx_lvl_s fck z bw dg E As Med Ved Ned
             delta_e alfa gamma_c) v ->
  (approx_lvl_c = 1 /\ exists r, v = Float r)
  \/ (approx_lvl_c <> 1 /\ approx_lvl_c <> 2 /\ approx_lvl_s <> 3
      /\ v = NoneV).
Proof.
  unfold v_rdc, py_eq. intros H.
  destruct (Req_dec_T approx_lvl_c 1) as [H1 | H1].
  { left. split; [exact H1 |].
    apply v_rdc_approx1_returns_float in H. exact H. }
  destruct (Req_dec_T approx_lvl_c 2) as [H2 | H2].
  { exfalso. revert H. apply raises_not_returns, v_rdc_approx2_raises. }
  destruct (Req_dec_T approx_lvl_s 3) as [H3 | H3].
  { exfalso. revert H. apply raises_not_returns, v_rds_approx3_raises. }
  right. apply returns_ret_inv in H. auto.
Qed.

Lemma v_rdc_returns_only_at_level_1_witness :
  (1 = 1 /\ exists r,
     Float (180 / (1000 + 1.25 * 180)
            * (if Rlt_dec 8 (sqrt 35) then 8 else sqrt 35)
            * 180 * 300 / 1.5) = Float r)
  \/ (1 <> 1 /\ 1 <> 2 /\ 0 <> 3
      /\ Float (180 / (1000 + 1.25 * 180)
                * (if Rlt_dec 8 (sqrt 35) then 8 else sqrt 35)
                * 180 * 300 / 1.5) = NoneV).
Proof.
  apply (v_rdc_returns_only_at_level_1 1 0 35 180 300 0 0 0 0 0 0 0 0
           (Some 1.5)).
  rewrite v_rdc_level_1. unfold or_default.
  rewrite v_rdc_approx1_nonneg_value by lra. reflexivity.
Defined.

(** ** [v_rd]: what it returns *)

Lemma v_rd_max_number_level_1
  (approx_lvl_s fck bw theta z E As Med Ved Ned delta_e : R)
  (alfa gamma_c : option R) (r : R) :
  returns (v_rd_max approx_lvl_s fck bw theta z E As Med Ved Ned delta_e
             alfa gamma_c) (Float r) ->
  approx_lvl_s = 1.
Proof.
  unfold v_rd_max, py_eq. intros H.
  destruct (Req_dec_T approx_lvl_s 1) as [H1 | H1]; [exact H1 |].
  exfalso. revert H.
  destruct (Req_dec_T approx_lvl_s 2);
    [apply raises_not_returns, v_rd_max_approx2_raises |].
  destruct (Req_dec_T approx_lvl_s 3);
    [apply raises_not_returns, v_rd_max_approx3_on_raises |].
  intros H. apply returns_ret_inv in H. discriminate H.
Qed.

Lemma v_rdc_number_level_1
  (approx_lvl_c approx_lvl_s fck z bw dg E As Med Ved Ned delta_e alfa : R)
  (gamma_c : option R) (r : R) :
  returns (v_rdc approx_lvl_c approx_lvl_s fck z bw dg E As Med Ved Ned
             delta_e alfa gamma_c) (Float r) ->
  approx_lvl_c = 1.
Proof.
  unfold v_rdc, py_eq. intros H.
  destruct (Req_dec_T approx_lvl_c 1) as [H1 | H1]; [exact H1 |].
  exfalso. revert H.
  destruct (Req_dec_T approx_lvl_c 2);
    [apply raises_not_returns, v_rdc_approx2_raises |].
  destruct (Req_dec_T approx_lvl_s 3);
    [apply raises_not_returns, v_rds_approx3_raises |].
  intros H. apply returns_ret_inv in H. discriminate H.
Qed.

Lemma py_min2_returns (a b v : value) :
  returns (py_min2 a b) v ->
  exists x y r, a = Float x /\ b = Float y /\ v = Float r
                /\ r <= x /\ r <= y.
Proof.
  destruct a as [x | | | |], b as [y | | | |]; simpl; intros H;
    try (exfalso; exact (returns_raise_inv _ _ H)).
  apply returns_ret_inv in H. exists x, y. eexists.
  repeat split; [symmetry; exact H | |];
    destruct (Rlt_dec y x); lra.
Qed.

(** X15.  [v_rd] returns a number in two cases only: with reinforcement at
    steel level 1, and without reinforcement at concrete level 1.  In
    every other case it raises or returns [None]. *)
Theorem v_rd_returns_number_only_at_level_1
  (approx_lvl_c approx_lvl_s : R) (reinforcment : bool)
  (fck z bw dg E As Med Ved Ned delta_e alfa gamma_c asw sw fywd theta r : R) :
  returns (v_rd approx_lvl_c approx_lvl_s reinforcment fck z bw dg E As Med
             Ved Ned delta_e alfa gamma_c asw sw fywd theta) (Float r) ->
  (reinforcment = true /\ approx_lvl_s = 1)
  \/ (reinforcment = false /\ approx_lvl_c = 1).
Proof.
  destruct reinforcment.
  - intros H. left. split; [reflexivity |].
    destruct (Req_dec_T approx_lvl_s 3) as [H3 | H3].
    + exfalso. revert H. unfold v_rd.
      rewrite v_rd_level_check, bind_ret. subst approx_lvl_s.
      rewrite py_eq_refl. simpl. intros H.
      apply returns_bind in H. destruct H as [c [_ H]].
      apply returns_bind in H. destruct H as [s [_ H]].
      apply returns_bind in H. destruct H as [cs [_ H]].
      apply returns_bind in H. destruct H as [m [H _]].
      revert H. apply raises_not_returns.
      unfold v_rd_max. rewrite !py_eq_neq by lra. rewrite py_eq_refl.
      apply v_rd_max_approx3_on_raises.
    + rewrite v_rd_reinforced_low in H by assumption.
      apply returns_bind in H. destruct H as [s [_ H]].
      apply returns_bind in H. destruct H as [m [Hm H]].
      apply py_min2_returns in H.
      destruct H as [x [y [r' [_ [Hy _]]]]]. subst m.
      apply v_rd_max_number_level_1 in Hm. exact Hm.
  - intros H. right. split; [reflexivity |].
    rewrite v_rd_unreinforced in H.
    apply v_rdc_number_level_1 in H. exact H.
Qed.

Lemma v_rd_returns_number_only_at_level_1_witness :
  (false = true /\ 0 = 1) \/ (false = false /\ 1 = 1).
Proof.
  apply (v_rd_returns_number_only_at_level_1 1 0 false 35 180 200 16 200000
           2000 0 2000 0 20 90 1.5 0 0 434 40
           (180 / (1000 + 1.25 * 200)
            * (if Rlt_dec 8 (sqrt 180) then 8 else sqrt 180)
            * 200 * 16 / 1.5)).
  rewrite v_rd_unreinforced, v_rdc_level_1. unfold or_default.
  rewrite v_rdc_approx1_nonneg_value by lra. reflexivity.
Defined.

(** X16.  Without reinforcement and at concrete level 1, [v_rd] evaluates
    [v_rdc_approx1] on [z], [bw] and [dg] in the places of the
    strength, the lever arm and the web width, with the safety factor
    1.5: its result depends on neither [fck] nor [gamma_c]. *)
Theorem v_rd_unreinforced_level_1
  (approx_lvl_s fck z bw dg E As Med Ved Ned delta_e alfa gamma_c
     asw sw fywd theta : R) :
  v_rd 1 approx_lvl_s false fck z bw dg E As Med Ved Ned delta_e alfa
    gamma_c asw sw fywd theta
  = v_rdc_approx1 z bw dg (Some 1.5).
Proof.
  rewrite v_rd_unreinforced, v_rdc_level_1. reflexivity.
Qed.

(** X17.  With reinforcement, at steel level 1 and where no division fails,
    [v_rd] returns the smaller of the steel resistance [v_rds] and the
    level-1 maximum [v_rd_max], both in closed form. *)
Theorem v_rd_level_1_min_of_steel_and_cap
  (approx_lvl_c fck z bw dg E As Med Ved Ned delta_e alfa gamma_c
     asw sw fywd theta : R) :
  0 < fck -> gamma_c <> 0 -> sw <> 0 ->
  sin (theta * PI / 180) <> 0 -> sin (alfa * PI / 180) <> 0 ->
  v_rd approx_lvl_c 1 true fck z bw dg E As Med Ved Ned delta_e
    alfa gamma_c asw sw fywd theta
  = ret (Float
           (Rmin
              (asw / sw * z * fywd
               * (cot (theta * PI / 180) + cot (alfa * PI / 180))
               * sin (alfa * PI / 180))
              (0.55 * nfc_value fck * (fck / gamma_c) * bw * z
               * ((cot (theta * PI / 180) + cot (alfa * PI / 180))
                  * sin (theta * PI / 180) ^ 2)))).
Proof.
  intros Hf Hg Hsw Ht Ha.
  rewrite v_rd_reinforced_low by lra.
  rewrite v_rds_value by assumption. rewrite bind_ret.
  rewrite v_rd_max_level_1_value by assumption. rewrite bind_ret.
  unfold py_min2, ret, Rmin. do 3 f_equal.
  match goal with
  | |- (if Rlt_dec ?m ?s then _ else _) = _ =>
      destruct (Rlt_dec m s), (Rle_dec s m); lra
  end.
Qed.

Lemma v_rd_level_1_min_of_steel_and_cap_witness :
  v_rd 2 1 true 35 180 200 16 200000 2000 0 2000 0 20 90 1.5 500 200 434 40
  = ret (Float
           (Rmin
              (500 / 200 * 180 * 434
               * (cot (40 * PI / 180) + cot (90 * PI / 180))
               * sin (90 * PI / 180))
              (0.55 * nfc_value 35 * (35 / 1.5) * 200 * 180
               * ((cot (40 * PI / 180) + cot (90 * PI / 180))
                  * sin (40 * PI / 180) ^ 2)))).
Proof.
  apply (v_rd_level_1_min_of_steel_and_cap 2 35 180 200 16 200000 2000 0
           2000 0 20 90 1.5 500 200 434 40).
  - lra.
  - lra.
  - lra.
  - apply sin_degrees_neq_0; lra.
  - apply sin_degrees_neq_0; lra.
Defined.

